(** * JD2RoboticArm: G-code interpreter, SCARA kinematics and export pipeline

    A shallow embedding of [Final_Code/config.py], [Final_Code/kinematics.py],
    [Final_Code/gcode_parser.py] and [Final_Code/sd_exporter.py].

    Number model.  Python's [float] is IEEE-754 binary64, which is exactly
    Rocq's primitive [float]; [+ - * /], comparisons and [math.sqrt] are the
    kernel's primitives, so every function below runs on concrete inputs.
    Python's [int] is [Z].  Python exceptions are values of type [exn],
    threaded through the [result] monad; [try/except] is a [match] on it.
    The C library's transcendental functions ([acos], [atan2], [cos], [sin])
    are not part of the repository and are not specified bit for bit by any
    standard: the development is parametric in them ([MathLib]).

    The geometric identities (round trip of the kinematics, direction of the
    arc sweep) are facts of real arithmetic; they are stated in module
    [Exact], where the same functions are transcribed over [R]. *)

From Stdlib Require Import ZArith List String Ascii Bool Floats Lia.
From Stdlib Require Import Reals Lra.
From Stdlib Require Import DecimalString DecimalZ.
Import ListNotations.

Set Warnings "-inexact-float".

(* ================================================================== *)
(** * Python runtime *)
(* ================================================================== *)

Module Py.

(** The reason attached to a [ValueError] (its message, in the source). *)
Inductive value_error : Type :=
| OutOfReach      (* kinematics.py:46  "... out of reach ..." *)
| TooClose        (* kinematics.py:52  "... too close ..."    *)
| NaNToInteger    (* int(nan), round(nan)                     *)
| MathDomain      (* "math domain error"                      *)
| BadLiteral.     (* float(s) on a string that is no number   *)

Inductive exn : Type :=
| ValueError (why : value_error)
| OverflowError
| ZeroDivisionError
| IndexError.

Inductive result (A : Type) : Type :=
| Ok (a : A)
| Raise (e : exn).
Arguments Ok {A} a.
Arguments Raise {A} e.

Definition bind {A B} (c : result A) (k : A -> result B) : result B :=
  match c with
  | Ok a => k a
  | Raise e => Raise e
  end.

Declare Scope py_scope.
Delimit Scope py_scope with py.
Notation "x <- c ;; k" := (bind c (fun x => k))
  (at level 61, c at next level, right associativity) : py_scope.
Notation "' p <- c ;; k" := (bind c (fun p => k))
  (at level 61, p pattern, c at next level, right associativity) : py_scope.

Open Scope py_scope.

(** [for v in xs: ys.append(f(v))], abandoned at the first exception. *)
Fixpoint mapM {A B} (f : A -> result B) (xs : list A) : result (list B) :=
  match xs with
  | [] => Ok []
  | v :: xs' => b <- f v ;; bs <- mapM f xs' ;; Ok (b :: bs)
  end.

(** [range(n)] *)
Definition range (n : Z) : list Z := map Z.of_nat (seq 0 (Z.to_nat n)).

(** [xs[0]] and [xs[-1]] *)
Definition item0 {A} (xs : list A) : result A :=
  match xs with
  | [] => Raise IndexError
  | v :: _ => Ok v
  end.

Fixpoint item_last {A} (xs : list A) : result A :=
  match xs with
  | [] => Raise IndexError
  | [v] => Ok v
  | _ :: xs' => item_last xs'
  end.

(** ** Floats *)

Open Scope float_scope.

Definition pi : float := 0x1.921fb54442d18p+1.

(** [min(a, b)] and [max(a, b)]: the first argument is kept unless the
    second is strictly smaller (larger). *)
Definition min (a b : float) : float := if b <? a then b else a.
Definition max (a b : float) : float := if a <? b then b else a.

(** [x ** 2] (float.__pow__): the square, taken as the correctly rounded
    product, and [OverflowError] when a finite [x] squares to infinity. *)
Definition pow2 (x : float) : result float :=
  let p := x * x in
  if is_finite x && is_infinity p then Raise OverflowError else Ok p.

(** [a / b] on floats. *)
Definition truediv (a b : float) : result float :=
  if b =? 0 then Raise ZeroDivisionError else Ok (a / b).

(** CPython's wrappers around the one- and two-argument C functions of
    [math] (mathmodule.c, [math_1] and [math_2]): a NaN made from numbers is
    a domain error, an infinity made from finite numbers is an error too. *)
Definition math_1 (f : float -> float) (x : float) : result float :=
  let r := f x in
  if is_nan r && negb (is_nan x) then Raise (ValueError MathDomain)
  else if is_infinity r && is_finite x then Raise (ValueError MathDomain)
  else Ok r.

Definition math_2 (f : float -> float -> float) (x y : float) : result float :=
  let r := f x y in
  if is_nan r then
    if negb (is_nan x) && negb (is_nan y) then Raise (ValueError MathDomain)
    else Ok r
  else if is_infinity r then
    if is_finite x && is_finite y then Raise OverflowError else Ok r
  else Ok r.

(** The part of the C math library the program calls. *)
Class MathLib : Type := {
  c_acos  : float -> float;
  c_atan2 : float -> float -> float;
  c_cos   : float -> float;
  c_sin   : float -> float
}.

(** What the C standard (Annex F) promises of the four functions, as far as
    Python's error checks go: finite results on their domains. *)
Class MathLibSpec (M : MathLib) : Prop := {
  acos_finite : forall v, (-1 <=? v) = true -> (v <=? 1) = true ->
                          is_finite (c_acos v) = true;
  cos_finite : forall v, is_finite v = true -> is_finite (c_cos v) = true;
  sin_finite : forall v, is_finite v = true -> is_finite (c_sin v) = true;
  atan2_finite : forall a b, is_nan a = false -> is_nan b = false ->
                             is_finite (c_atan2 a b) = true
}.

Definition math_sqrt : float -> result float := math_1 PrimFloat.sqrt.
Definition math_acos `{MathLib} : float -> result float := math_1 c_acos.
Definition math_cos `{MathLib} : float -> result float := math_1 c_cos.
Definition math_sin `{MathLib} : float -> result float := math_1 c_sin.
Definition math_atan2 `{MathLib} : float -> float -> result float :=
  math_2 c_atan2.

(** [math.degrees] and [math.radians] multiply by a constant. *)
Definition degrees (x : float) : float := x * (180 / pi).
Definition radians (x : float) : float := x * (pi / 180).

(** [int(x)]: truncation toward zero. *)
Definition int (x : float) : result Z :=
  match Prim2SF x with
  | S754_nan => Raise (ValueError NaNToInteger)
  | S754_infinity _ => Raise OverflowError
  | S754_zero _ => Ok 0%Z
  | S754_finite s m e => Ok (cond_Zopp s (Z.shiftl (Zpos m) e))
  end.

(** [round(x)] with one argument: the nearest integer, ties to even. *)
Definition round_half_even (m : positive) (e : Z) : Z :=
  if (0 <=? e)%Z then Z.shiftl (Zpos m) e
  else
    let d := Z.pow 2 (- e) in
    let q := Z.div (Zpos m) d in
    let r := Z.modulo (Zpos m) d in
    match Z.compare (2 * r) d with
    | Lt => q
    | Gt => (q + 1)%Z
    | Eq => if Z.even q then q else (q + 1)%Z
    end.

Definition round (x : float) : result Z :=
  match Prim2SF x with
  | S754_nan => Raise (ValueError NaNToInteger)
  | S754_infinity _ => Raise OverflowError
  | S754_zero _ => Ok 0%Z
  | S754_finite s m e => Ok (cond_Zopp s (round_half_even m e))
  end.

(** [i / n] on ints: the correctly rounded quotient. *)
Definition sf_of_int (i : Z) : spec_float :=
  match i with
  | Z0 => S754_zero false
  | Zpos p => S754_finite false p 0
  | Zneg p => S754_finite true p 0
  end.

(** [OverflowError] ("integer division result too large for a float") is
    raised when the quotient rounds beyond the largest float, that is when
    [|i| / |n| >= 2^1024 - 2^970]. *)
Definition int_truediv (i n : Z) : result float :=
  if (n =? 0)%Z then Raise ZeroDivisionError
  else if (Z.abs n * (2 ^ 1024 - 2 ^ 970) <=? Z.abs i)%Z then Raise OverflowError
  else Ok (SF2Prim (SFdiv prec emax (sf_of_int i) (sf_of_int n))).

(** ** Numbers that are an int or a float

    [config.constrain_servo_angle] mixes the int limits with a float angle;
    the conversions below are exact for the ints the program uses. *)

Inductive number : Type :=
| Int (z : Z)
| Float (f : float).

Definition float_of_Z (z : Z) : float :=
  SF2Prim (binary_normalize prec emax z 0 false).

Definition num_lt (a b : number) : bool :=
  match a, b with
  | Int x, Int y => (x <? y)%Z
  | Float x, Float y => x <? y
  | Int x, Float y => float_of_Z x <? y
  | Float x, Int y => x <? float_of_Z y
  end.

Definition num_min (a b : number) : number := if num_lt b a then b else a.
Definition num_max (a b : number) : number := if num_lt a b then b else a.

(** [x + i] for a float [x] and an int [i]. *)
Definition add_int (x : float) (i : Z) : float := x + float_of_Z i.

(** [int(round(a))] *)
Definition int_round (a : number) : result Z :=
  match a with
  | Int z => Ok z
  | Float f => round f
  end.

(** [int(a)] *)
Definition num_int (a : number) : result Z :=
  match a with
  | Int z => Ok z
  | Float f => int f
  end.

(** [a * k], [k - a] and [a / k] for one of the int constants [k] of
    [config.py], all of which convert to float exactly. *)
Definition num_mul_int (a : number) (k : Z) : number :=
  match a with
  | Int z => Int (z * k)
  | Float f => Float (f * float_of_Z k)
  end.

Definition int_sub_num (k : Z) (a : number) : number :=
  match a with
  | Int z => Int (k - z)
  | Float f => Float (float_of_Z k - f)
  end.

Definition num_truediv_int (a : number) (k : Z) : result float :=
  match a with
  | Int z => int_truediv z k
  | Float f => truediv f (float_of_Z k)
  end.

(** [min(xs)] and [max(xs)] for the non-empty list of ints [x :: xs]. *)
Definition min_list (x : Z) (xs : list Z) : Z := fold_left Z.min xs x.
Definition max_list (x : Z) (xs : list Z) : Z := fold_left Z.max xs x.

(** ** Strings

    Text is ASCII: the characters above 127, which Python would treat by
    their Unicode properties, are outside the model. *)

(** The blanks of [str.strip] and [str.split]. *)
Definition isspace (c : ascii) : bool :=
  let n := nat_of_ascii c in
  ((9 <=? n) && (n <=? 13) || (28 <=? n) && (n <=? 32))%nat.

Definition isdigit (c : ascii) : bool :=
  let n := nat_of_ascii c in ((48 <=? n) && (n <=? 57))%nat.

Definition digit_value (c : ascii) : Z := Z.of_nat (nat_of_ascii c - 48).

Definition upper_char (c : ascii) : ascii :=
  let n := nat_of_ascii c in
  if ((97 <=? n) && (n <=? 122))%nat then ascii_of_nat (n - 32) else c.

(** [s.upper()] *)
Fixpoint upper (s : string) : string :=
  match s with
  | EmptyString => EmptyString
  | String c s' => String (upper_char c) (upper s')
  end.

Section Strip.
Variable blank : ascii -> bool.

Fixpoint lstrip_by (s : string) : string :=
  match s with
  | EmptyString => EmptyString
  | String c s' => if blank c then lstrip_by s' else s
  end.

Fixpoint rstrip_by (s : string) : string :=
  match s with
  | EmptyString => EmptyString
  | String c s' =>
      match rstrip_by s' with
      | EmptyString => if blank c then EmptyString else String c EmptyString
      | r => String c r
      end
  end.

Definition strip_by (s : string) : string := lstrip_by (rstrip_by s).

End Strip.

(** [s.strip()] *)
Definition strip (s : string) : string := strip_by isspace s.

(** [s.split(sep)] for a one-character separator: never empty. *)
Fixpoint split (sep : ascii) (s : string) : list string :=
  match s with
  | EmptyString => [EmptyString]
  | String c s' =>
      if Ascii.eqb c sep then EmptyString :: split sep s'
      else
        match split sep s' with
        | w :: ws => String c w :: ws
        | [] => [String c EmptyString]
        end
  end.

(** [s.split()]: the maximal runs of non-blank characters. *)
Fixpoint words (s : string) : list string :=
  match s with
  | EmptyString => []
  | String c s' =>
      if isspace c then words s'
      else
        match s' with
        | EmptyString => [String c EmptyString]
        | String c' _ =>
            if isspace c' then String c EmptyString :: words s'
            else
              match words s' with
              | w :: ws => String c w :: ws
              | [] => [String c EmptyString]
              end
        end
  end.

(** [s.startswith(c)] for a one-character prefix. *)
Definition startswith (s : string) (c : ascii) : bool :=
  match s with
  | EmptyString => false
  | String c' _ => Ascii.eqb c' c
  end.

(** ** [float(s)] *)

(** Underscores may only stand between two digits. *)
Fixpoint underscores_ok (prev : ascii) (s : list ascii) : bool :=
  match s with
  | [] => true
  | c :: s' =>
      if Ascii.eqb c "_" then
        isdigit prev
        && match s' with d :: _ => isdigit d | [] => false end
        && underscores_ok c s'
      else underscores_ok c s'
  end.

Definition drop_underscores (s : list ascii) : list ascii :=
  filter (fun c => negb (Ascii.eqb c "_")) s.

(** The longest prefix of digits, read in base ten after [acc], with the
    number of digits read and the rest. *)
Fixpoint digits (acc : Z) (n : Z) (s : list ascii) : Z * Z * list ascii :=
  match s with
  | c :: s' => if isdigit c then digits (10 * acc + digit_value c) (n + 1) s'
               else (acc, n, s)
  | [] => (acc, n, s)
  end.

Definition sign (s : list ascii) : bool * list ascii :=
  match s with
  | c :: s' =>
      if Ascii.eqb c "-" then (true, s')
      else if Ascii.eqb c "+" then (false, s')
      else (false, s)
  | [] => (false, s)
  end.

(** [d * 10^k], correctly rounded; too large a value is an infinity. *)
Definition decimal_to_float (neg : bool) (d k : Z) : float :=
  match d with
  | Zpos p =>
      if (0 <=? k)%Z then
        SF2Prim (binary_normalize prec emax (cond_Zopp neg (d * 10 ^ k)) 0 false)
      else
        SF2Prim (SFdiv prec emax (S754_finite neg p 0)
                   (S754_finite false (Z.to_pos (10 ^ (- k))) 0))
  | _ => if neg then -0 else 0
  end.

(** The exponent part: [e], an optional sign and at least one digit, up to
    the end of the string. *)
Definition exponent (s : list ascii) : option Z :=
  match s with
  | [] => Some 0%Z
  | c :: s' =>
      if Ascii.eqb (upper_char c) "E" then
        let '(neg, s'') := sign s' in
        match digits 0 0 s'' with
        | (e, n, []) => if (0 <? n)%Z then Some (cond_Zopp neg e) else None
        | _ => None
        end
      else None
  end.

Definition decimal_literal (neg : bool) (s : list ascii) : option float :=
  let '(i, ni, s1) := digits 0 0 s in
  let '(d, nf, s2) :=
    match s1 with
    | c :: s1' => if Ascii.eqb c "." then digits i 0 s1' else (i, 0%Z, s1)
    | [] => (i, 0%Z, s1)
    end in
  if (0 <? ni + nf)%Z then
    match exponent s2 with
    | Some e => Some (decimal_to_float neg d (e - nf))
    | None => None
    end
  else None.

Definition inf_or_nan (neg : bool) (s : list ascii) : option float :=
  let u := upper (string_of_list_ascii s) in
  if (String.eqb u "INF" || String.eqb u "INFINITY")%string then
    Some (if neg then neg_infinity else infinity)
  else if String.eqb u "NAN" then Some nan
  else None.

Definition float_literal (s : list ascii) : option float :=
  if underscores_ok "000" s then
    let '(neg, s') := sign (drop_underscores s) in
    match decimal_literal neg s' with
    | Some f => Some f
    | None => inf_or_nan neg s'
    end
  else None.

(** The blanks [float] strips from an ASCII string (C's [isspace]), fewer
    than [str.strip] does. *)
Definition c_isspace (c : ascii) : bool :=
  let n := nat_of_ascii c in ((9 <=? n) && (n <=? 13) || (n =? 32))%nat.

(** [float(s)] *)
Definition float_of_string (s : string) : result float :=
  match float_literal (list_ascii_of_string (strip_by c_isspace s)) with
  | Some f => Ok f
  | None => Raise (ValueError BadLiteral)
  end.

(** ** Dictionaries with one-character keys (the [params] of a command) *)

Definition dict : Type := list (ascii * float).

(** [d[k] = v] *)
Fixpoint setitem (d : dict) (k : ascii) (v : float) : dict :=
  match d with
  | [] => [(k, v)]
  | (k', v') :: d' =>
      if Ascii.eqb k' k then (k, v) :: d' else (k', v') :: setitem d' k v
  end.

Fixpoint lookup (d : dict) (k : ascii) : option float :=
  match d with
  | [] => None
  | (k', v') :: d' => if Ascii.eqb k' k then Some v' else lookup d' k
  end.

(** [d.get(k, default)] *)
Definition get (d : dict) (k : ascii) (default : float) : float :=
  match lookup d k with
  | Some v => v
  | None => default
  end.

(** [k in d] *)
Definition contains (d : dict) (k : ascii) : bool :=
  match lookup d k with
  | Some _ => true
  | None => false
  end.

(** ** Text made of ints *)

(** [str(i)], which is also [f"{i}"]. *)
Definition str_int (i : Z) : string := NilZero.string_of_int (Z.to_int i).

(** [f"{i:wd}"]: the digits, right-aligned in a field of [w] characters. *)
Definition format_d (w : nat) (i : Z) : string :=
  let s := str_int i in
  string_of_list_ascii (repeat " "%char (w - String.length s)) ++ s.

(** [sep.join(xs)] *)
Fixpoint join (sep : string) (xs : list string) : string :=
  match xs with
  | [] => EmptyString
  | [s] => s
  | s :: xs' => s ++ sep ++ join sep xs'
  end.

(** [xs[:k]]: a negative [k] counts from the end. *)
Definition slice_to {A} (xs : list A) (k : Z) : list A :=
  if (k <? 0)%Z then firstn (Z.to_nat (Z.of_nat (List.length xs) + k)) xs
  else firstn (Z.to_nat k) xs.

(** [enumerate(xs, start)] *)
Fixpoint enumerate {A} (xs : list A) (start : Z) : list (Z * A) :=
  match xs with
  | [] => []
  | v :: xs' => (start, v) :: enumerate xs' (start + 1)
  end.

(** ** Files

    The program writes one file:
    [with open(filename, 'w') as f: for ...: f.write(chunk)], and then asks
    for [os.path.abspath(filename)].  What these do, and whether they
    raise, is the environment's business: [write_file] is the whole [with]
    block on the chunks in the order they are written. *)
Class FileSystem : Type := {
  world : Type;
  os_error : Type;
  write_file : string -> list string -> world -> world * option os_error;
  abspath : string -> world -> string + os_error
}.

End Py.

Import Py.
Open Scope py_scope.
Open Scope float_scope.

(* ================================================================== *)
(** * config.py *)
(* ================================================================== *)

Module config.

Definition ARM_L1 : float := 6.0.
Definition ARM_L2 : float := 6.0.

Definition HOME_X : float := 6.0.
Definition HOME_Y : float := 6.0.

Definition SERVO1_MIN : Z := 0.
Definition SERVO1_MAX : Z := 180.
Definition SERVO2_MIN : Z := 0.
Definition SERVO2_MAX : Z := 180.

Definition SERVO1_HOME : Z := 75.
Definition SERVO2_HOME : Z := 120.

Definition SERVO1_OFFSET : Z := 0.
Definition SERVO2_OFFSET : Z := 0.

Definition DEFAULT_FEED_RATE : float := 2.0.
Definition MAX_FEED_RATE : float := 10.0.

Definition ARC_SEGMENTS_PER_INCH : float := 10.

Definition DEFAULT_UNITS : string := "inches".

Definition constrain_servo_angle (angle : float) (servo_num : Z) : number :=
  if (servo_num =? 1)%Z then
    num_max (Int SERVO1_MIN) (num_min (Int SERVO1_MAX) (Float angle))
  else
    num_max (Int SERVO2_MIN) (num_min (Int SERVO2_MAX) (Float angle)).

Definition apply_servo_offset (angle1 angle2 : float) : number * number :=
  let angle1_adjusted := add_int angle1 SERVO1_OFFSET in
  let angle2_adjusted := add_int angle2 SERVO2_OFFSET in
  let angle1_final := constrain_servo_angle angle1_adjusted 1 in
  let angle2_final := constrain_servo_angle angle2_adjusted 2 in
  (angle1_final, angle2_final).

Definition PAPER_HEIGHT_INCHES : float := 11.0.
Definition PIXELS_PER_INCH : Z := 50.

(** [int(PAPER_HEIGHT_INCHES * PIXELS_PER_INCH)] *)
Definition CANVAS_HEIGHT : Z := 550.

Definition SD_OUTPUT_FILE : string := "moves.txt".

Definition canvas_to_robot (canvas_x canvas_y : number) : result (float * float) :=
  robot_x <- num_truediv_int canvas_x PIXELS_PER_INCH ;;
  robot_y <- num_truediv_int (int_sub_num CANVAS_HEIGHT canvas_y) PIXELS_PER_INCH ;;
  Ok (robot_x, robot_y).

Definition robot_to_canvas (robot_x robot_y : number) : result (Z * Z) :=
  canvas_x <- num_int (num_mul_int robot_x PIXELS_PER_INCH) ;;
  canvas_y <- num_int (int_sub_num CANVAS_HEIGHT
                         (num_mul_int robot_y PIXELS_PER_INCH)) ;;
  Ok (canvas_x, canvas_y).

End config.

(* ================================================================== *)
(** * kinematics.py *)
(* ================================================================== *)

Module kinematics.

Record SCARAKinematics : Type := {
  L1 : float;
  L2 : float;
  max_reach : float;
  min_reach : float
}.

(** [SCARAKinematics.__init__] *)
Definition init (L1 L2 : float) : SCARAKinematics :=
  {| L1 := L1; L2 := L2; max_reach := L1 + L2; min_reach := abs (L1 - L2) |}.

(** A waypoint [(x, y)]. *)
Definition point : Type := float * float.

Section WithMath.
Context {M : MathLib}.

(** [r = math.sqrt(x**2 + y**2)] *)
Definition norm (x y : float) : result float :=
  x2 <- pow2 x ;; y2 <- pow2 y ;; math_sqrt (x2 + y2).

Definition inverse_kinematics (self : SCARAKinematics) (x y : float)
    (elbow_up : bool) : result (float * float) :=
  r <- norm x y ;;
  if max_reach self <? r then Raise (ValueError OutOfReach)
  else if r <? min_reach self then Raise (ValueError TooClose)
  else if r <? 0.001 then Ok (0, 0)
  else
    x2 <- pow2 x ;; y2 <- pow2 y ;;
    l1 <- pow2 (L1 self) ;; l2 <- pow2 (L2 self) ;;
    cos_theta2 <- truediv (x2 + y2 - l1 - l2) (2 * L1 self * L2 self) ;;
    let cos_theta2 := max (-1) (min 1 cos_theta2) in
    a <- math_acos cos_theta2 ;;
    let theta2 := if elbow_up then a else - a in
    c <- math_cos theta2 ;;
    let k1 := L1 self + L2 self * c in
    s <- math_sin theta2 ;;
    let k2 := L2 self * s in
    a1 <- math_atan2 y x ;;
    a2 <- math_atan2 k2 k1 ;;
    let theta1 := a1 - a2 in
    Ok (degrees theta1, degrees theta2).

Definition forward_kinematics (self : SCARAKinematics)
    (theta1_deg theta2_deg : float) : result (float * float) :=
  let theta1 := radians theta1_deg in
  let theta2 := radians theta2_deg in
  c1 <- math_cos theta1 ;;
  let elbow_x := L1 self * c1 in
  s1 <- math_sin theta1 ;;
  let elbow_y := L1 self * s1 in
  c12 <- math_cos (theta1 + theta2) ;;
  let x := elbow_x + L2 self * c12 in
  s12 <- math_sin (theta1 + theta2) ;;
  let y := elbow_y + L2 self * s12 in
  Ok (x, y).

Definition is_reachable (self : SCARAKinematics) (x y : float) : result bool :=
  r <- norm x y ;;
  Ok ((min_reach self <=? r) && (r <=? max_reach self)).

(** The sweep angle of an arc, from the angles of its two ends. *)
Definition arc_sweep (clockwise : bool) (start_angle end_angle : float) : float :=
  if clockwise then
    if start_angle <? end_angle then end_angle - start_angle - 2 * pi
    else end_angle - start_angle
  else
    if end_angle <? start_angle then end_angle - start_angle + 2 * pi
    else end_angle - start_angle.

Definition interpolate_arc (x_start y_start x_end y_end x_center y_center : float)
    (clockwise : bool) (segments_per_inch : float) : result (list point) :=
  start_angle <- math_atan2 (y_start - y_center) (x_start - x_center) ;;
  end_angle <- math_atan2 (y_end - y_center) (x_end - x_center) ;;
  dx2 <- pow2 (x_start - x_center) ;;
  dy2 <- pow2 (y_start - y_center) ;;
  radius <- math_sqrt (dx2 + dy2) ;;
  let sweep := arc_sweep clockwise start_angle end_angle in
  let arc_length := abs (radius * sweep) in
  n <- int (arc_length * segments_per_inch) ;;
  let num_segments := Z.max 4 n in
  mapM (fun i =>
          t <- int_truediv i num_segments ;;
          let angle := start_angle + t * sweep in
          c <- math_cos angle ;;
          let x := x_center + radius * c in
          s <- math_sin angle ;;
          let y := y_center + radius * s in
          Ok (x, y))
       (range (num_segments + 1)).

End WithMath.

(** [num_segments] in [interpolate_line]. *)
Definition line_segments (x_start y_start x_end y_end : float)
    (segments_per_inch : float) : result Z :=
  dx2 <- pow2 (x_end - x_start) ;;
  dy2 <- pow2 (y_end - y_start) ;;
  distance <- math_sqrt (dx2 + dy2) ;;
  n <- int (distance * segments_per_inch) ;;
  Ok (Z.max 2 n).

Definition interpolate_line (x_start y_start x_end y_end : float)
    (segments_per_inch : float) : result (list point) :=
  num_segments <- line_segments x_start y_start x_end y_end segments_per_inch ;;
  mapM (fun i =>
          t <- int_truediv i num_segments ;;
          let x := x_start + t * (x_end - x_start) in
          let y := y_start + t * (y_end - y_start) in
          Ok (x, y))
       (range (num_segments + 1)).

End kinematics.

(* ================================================================== *)
(** * gcode_parser.py *)
(* ================================================================== *)

Module gcode_parser.
Import config kinematics.

(** The dictionaries [{'x': ..., 'y': ...}]. *)
Record position : Type := { x : float; y : float }.

Record GCodeParser : Type := {
  absolute_mode : bool;
  units : string;
  current_pos : position;
  offset : position;
  feed_rate : float;
  home_pos : position;
  command_count : Z
}.

(** [GCodeParser.__init__], also [reset]. *)
Definition init : GCodeParser :=
  {| absolute_mode := true;
     units := DEFAULT_UNITS;
     current_pos := {| x := HOME_X; y := HOME_Y |};
     offset := {| x := 0; y := 0 |};
     feed_rate := DEFAULT_FEED_RATE;
     home_pos := {| x := HOME_X; y := HOME_Y |};
     command_count := 0 |}.

Definition set_absolute_mode (self : GCodeParser) (v : bool) : GCodeParser :=
  {| absolute_mode := v; units := units self; current_pos := current_pos self;
     offset := offset self; feed_rate := feed_rate self;
     home_pos := home_pos self; command_count := command_count self |}.

Definition set_units (self : GCodeParser) (v : string) : GCodeParser :=
  {| absolute_mode := absolute_mode self; units := v;
     current_pos := current_pos self; offset := offset self;
     feed_rate := feed_rate self; home_pos := home_pos self;
     command_count := command_count self |}.

Definition set_current_pos (self : GCodeParser) (v : position) : GCodeParser :=
  {| absolute_mode := absolute_mode self; units := units self;
     current_pos := v; offset := offset self; feed_rate := feed_rate self;
     home_pos := home_pos self; command_count := command_count self |}.

Definition set_offset (self : GCodeParser) (v : position) : GCodeParser :=
  {| absolute_mode := absolute_mode self; units := units self;
     current_pos := current_pos self; offset := v;
     feed_rate := feed_rate self; home_pos := home_pos self;
     command_count := command_count self |}.

Definition set_feed_rate (self : GCodeParser) (v : float) : GCodeParser :=
  {| absolute_mode := absolute_mode self; units := units self;
     current_pos := current_pos self; offset := offset self; feed_rate := v;
     home_pos := home_pos self; command_count := command_count self |}.

Definition set_command_count (self : GCodeParser) (v : Z) : GCodeParser :=
  {| absolute_mode := absolute_mode self; units := units self;
     current_pos := current_pos self; offset := offset self;
     feed_rate := feed_rate self; home_pos := home_pos self;
     command_count := v |}.

(** The dictionary returned by [parse_line]. *)
Record ParsedCommand : Type := {
  command : string;
  params : dict;
  raw : string
}.

(** The dictionaries returned by [execute_command], by their ['command']
    entry; the other entries are the constructor's arguments. *)
Inductive ExecutionResult : Type :=
| MOVE_LINEAR (start end_ : point) (waypoints : list point) (speed : float)
    (rapid : bool)
| MOVE_ARC (start end_ center : point) (waypoints : list point)
    (speed : float) (clockwise : bool)
| DWELL (duration : float)
| HOME_VIA (intermediate home : point)
| HOME (waypoints : list point) (home : point)
| SET_POSITION_CLEAR
| SET_POSITION (new_position offset : point)
| MODE (mode : string)
| UNITS (units : string)
| TOOL_CHANGE (tool : Z)
| END
| UNKNOWN (raw : string).

(** One turn of the loop over [parts[1:]]: [ValueError] is caught, any other
    exception would propagate. *)
Definition parse_param (params : dict) (part : string) : result dict :=
  match part with
  | String key (String c tail) =>
      match float_of_string (String c tail) with
      | Ok value => Ok (setitem params key value)
      | Raise (ValueError _) => Ok params
      | Raise e => Raise e
      end
  | _ => Ok params
  end.

Fixpoint parse_params (params : dict) (parts : list string) : result dict :=
  match parts with
  | [] => Ok params
  | part :: parts' => params' <- parse_param params part ;; parse_params params' parts'
  end.

Definition parse_line (line : string) : result (option ParsedCommand) :=
  head <- item0 (split ";" line) ;;
  let line := strip head in
  match line with
  | EmptyString => Ok None
  | _ =>
      match words (upper line) with
      | [] => Ok None
      | command :: rest =>
          params <- parse_params [] rest ;;
          Ok (Some {| command := command; params := params; raw := line |})
      end
  end.

(** The methods below change [self]: they return the parser as it is when
    they return or raise, with the value or the exception. *)

(** The target of [G0]-[G3] before the offset is applied. *)
Definition resolve_target (self : GCodeParser) (params : dict) : float * float :=
  if absolute_mode self then
    (get params "X" (x (current_pos self)), get params "Y" (y (current_pos self)))
  else
    (x (current_pos self) + get params "X" 0, y (current_pos self) + get params "Y" 0).

Definition update_feed_rate (self : GCodeParser) (params : dict) : GCodeParser :=
  match lookup params "F" with
  | Some f => set_feed_rate self (min f MAX_FEED_RATE)
  | None => self
  end.

Definition _process_linear_move (self : GCodeParser) (params : dict)
    (rapid : bool) : GCodeParser * result ExecutionResult :=
  let '(target_x, target_y) := resolve_target self params in
  let target_x := target_x - x (offset self) in
  let target_y := target_y - y (offset self) in
  let self := update_feed_rate self params in
  let speed := if rapid then MAX_FEED_RATE else feed_rate self in
  match interpolate_line (x (current_pos self)) (y (current_pos self))
          target_x target_y 5 with
  | Raise e => (self, Raise e)
  | Ok waypoints =>
      let self := set_current_pos self {| x := target_x; y := target_y |} in
      (self,
       start <- item0 waypoints ;;
       end_ <- item_last waypoints ;;
       Ok (MOVE_LINEAR start end_ waypoints speed rapid))
  end.

Definition _process_arc_move {M : MathLib} (self : GCodeParser) (params : dict)
    (clockwise : bool) : GCodeParser * result ExecutionResult :=
  let '(target_x, target_y) := resolve_target self params in
  let target_x := target_x - x (offset self) in
  let target_y := target_y - y (offset self) in
  let I := get params "I" 0 in
  let J := get params "J" 0 in
  let center_x := x (current_pos self) + I in
  let center_y := y (current_pos self) + J in
  let self := update_feed_rate self params in
  match interpolate_arc (x (current_pos self)) (y (current_pos self))
          target_x target_y center_x center_y clockwise
          ARC_SEGMENTS_PER_INCH with
  | Raise e => (self, Raise e)
  | Ok waypoints =>
      let self := set_current_pos self {| x := target_x; y := target_y |} in
      (self,
       start <- item0 waypoints ;;
       end_ <- item_last waypoints ;;
       Ok (MOVE_ARC start end_ (center_x, center_y) waypoints
             (feed_rate self) clockwise))
  end.

Definition _process_dwell (self : GCodeParser) (params : dict)
    : GCodeParser * result ExecutionResult :=
  let dwell_time := get params "P" 0 in
  (self, Ok (DWELL dwell_time)).

Definition _process_home (self : GCodeParser) (params : dict)
    : GCodeParser * result ExecutionResult :=
  if contains params "X" || contains params "Y" then
    let intermediate_x := get params "X" (x (current_pos self)) in
    let intermediate_y := get params "Y" (y (current_pos self)) in
    (self,
     Ok (HOME_VIA (intermediate_x, intermediate_y)
           (x (home_pos self), y (home_pos self))))
  else
    let target_x := x (home_pos self) in
    let target_y := y (home_pos self) in
    match interpolate_line (x (current_pos self)) (y (current_pos self))
            target_x target_y 5 with
    | Raise e => (self, Raise e)
    | Ok waypoints =>
        let self := set_current_pos self {| x := target_x; y := target_y |} in
        (self, Ok (HOME waypoints (target_x, target_y)))
    end.

Definition _process_set_position (self : GCodeParser) (params : dict)
    : GCodeParser * result ExecutionResult :=
  match params with
  | [] =>
      (set_offset self {| x := 0; y := 0 |}, Ok SET_POSITION_CLEAR)
  | _ =>
      let new_x := get params "X" (x (current_pos self)) in
      let new_y := get params "Y" (y (current_pos self)) in
      let self :=
        set_offset self {| x := x (current_pos self) - new_x;
                           y := y (offset self) |} in
      let self :=
        set_offset self {| x := x (offset self);
                           y := y (current_pos self) - new_y |} in
      (self,
       Ok (SET_POSITION (new_x, new_y) (x (offset self), y (offset self))))
  end.

Definition execute_command {M : MathLib} (self : GCodeParser)
    (cmd_dict : option ParsedCommand)
    : GCodeParser * result (option ExecutionResult) :=
  match cmd_dict with
  | None => (self, Ok None)
  | Some cmd_dict =>
      let command := command cmd_dict in
      let params := params cmd_dict in
      let self := set_command_count self (command_count self + 1) in
      let some '(self, r) := (self, r' <- r ;; Ok (Some r')) in
      if (command =? "G0")%string then some (_process_linear_move self params true)
      else if (command =? "G1")%string then some (_process_linear_move self params false)
      else if (command =? "G2")%string then some (_process_arc_move self params true)
      else if (command =? "G3")%string then some (_process_arc_move self params false)
      else if (command =? "G4")%string then some (_process_dwell self params)
      else if (command =? "G20")%string then
        (set_units self "inches", Ok (Some (UNITS "inches")))
      else if (command =? "G21")%string then
        (set_units self "mm", Ok (Some (UNITS "mm")))
      else if (command =? "G28")%string then some (_process_home self params)
      else if (command =? "G90")%string then
        (set_absolute_mode self true, Ok (Some (MODE "absolute")))
      else if (command =? "G91")%string then
        (set_absolute_mode self false, Ok (Some (MODE "incremental")))
      else if (command =? "G92")%string then some (_process_set_position self params)
      else if (command =? "M2")%string then (self, Ok (Some END))
      else if (command =? "M6")%string then
        (self, tool_number <- int (get params "T" 0) ;; Ok (Some (TOOL_CHANGE tool_number)))
      else (self, Ok (Some (UNKNOWN (raw cmd_dict))))
  end.

Definition get_current_position (self : GCodeParser) : position :=
  {| x := x (current_pos self) - x (offset self);
     y := y (current_pos self) - y (offset self) |}.

End gcode_parser.

(* ================================================================== *)
(** * sd_exporter.py *)
(* ================================================================== *)

Module sd_exporter.
Import config kinematics gcode_parser.

(** An entry of [error_log]: the data its message is formatted from
    ("Line n: Position (x, y) - e" and "Line n 'line': e"). *)
Inductive log_entry : Type :=
| PointError (line_num : Z) (x y : float) (e : exn)
| LineError (line_num : Z) (line : string) (e : exn).

Record SDCardExporter : Type := {
  parser : GCodeParser;
  kinematics : SCARAKinematics;
  angle_list : list (Z * Z);
  error_log : list log_entry
}.

(** [SDCardExporter.__init__] *)
Definition init : SDCardExporter :=
  {| parser := gcode_parser.init;
     kinematics := kinematics.init ARM_L1 ARM_L2;
     angle_list := [];
     error_log := [] |}.

Definition set_parser (self : SDCardExporter) (p : GCodeParser) : SDCardExporter :=
  {| parser := p; kinematics := kinematics self;
     angle_list := angle_list self; error_log := error_log self |}.

(** [self.angle_list.append(a)] *)
Definition append_angle (self : SDCardExporter) (a : Z * Z) : SDCardExporter :=
  {| parser := parser self; kinematics := kinematics self;
     angle_list := angle_list self ++ [a]; error_log := error_log self |}.

(** [self.error_log.append(m)] *)
Definition append_error (self : SDCardExporter) (m : log_entry) : SDCardExporter :=
  {| parser := parser self; kinematics := kinematics self;
     angle_list := angle_list self; error_log := error_log self ++ [m] |}.

Section WithMath.
Context {M : MathLib}.

(** The body of the [try] inside the loop over the waypoints. *)
Definition waypoint_angles (self : SDCardExporter) (x y : float) : result (Z * Z) :=
  '(theta1, theta2) <- inverse_kinematics (kinematics self) x y true ;;
  let '(theta1_adj, theta2_adj) := apply_servo_offset theta1 theta2 in
  servo1 <- int_round theta1_adj ;;
  servo2 <- int_round theta2_adj ;;
  Ok (servo1, servo2).

(** [for x, y in waypoints: try: ... except ValueError as e: ...]; another
    exception leaves the loop. *)
Fixpoint convert_waypoints (self : SDCardExporter) (line_num : Z)
    (waypoints : list point) : SDCardExporter * result unit :=
  match waypoints with
  | [] => (self, Ok tt)
  | (x, y) :: rest =>
      match waypoint_angles self x y with
      | Ok a => convert_waypoints (append_angle self a) line_num rest
      | Raise (ValueError why) =>
          convert_waypoints
            (append_error self (PointError line_num x y (ValueError why)))
            line_num rest
      | Raise e => (self, Raise e)
      end
  end.

(** [for _ in range(num_repeats): self.angle_list.append(last_angles)] *)
Definition repeat_angle (self : SDCardExporter) (last_angles : Z * Z)
    (num_repeats : Z) : SDCardExporter :=
  fold_left (fun s _ => append_angle s last_angles) (range num_repeats) self.

(** What the loop does after the body of a line. *)
Inductive flow : Type := Next | Break.

(** The [try] block of one line; [continue] and falling off the end are
    [Next]. *)
Definition line_body (self : SDCardExporter) (line_num : Z) (line : string)
    : SDCardExporter * result flow :=
  match parse_line line with
  | Raise e => (self, Raise e)
  | Ok None => (self, Ok Next)
  | Ok (Some parsed) =>
      let '(p, r) := execute_command (parser self) (Some parsed) in
      let self := set_parser self p in
      match r with
      | Raise e => (self, Raise e)
      | Ok None => (self, Ok Next)
      | Ok (Some result) =>
          match result with
          | MOVE_LINEAR _ _ waypoints _ _
          | MOVE_ARC _ _ _ waypoints _ _
          | HOME waypoints _ =>
              let '(self, r) := convert_waypoints self line_num waypoints in
              (self, _ <- r ;; Ok Next)
          | HOME_VIA _ _ =>
              let '(self, r) := convert_waypoints self line_num [] in
              (self, _ <- r ;; Ok Next)
          | DWELL duration =>
              if (0 <? duration)
                 && match angle_list self with [] => false | _ => true end
              then
                match item_last (angle_list self) with
                | Raise e => (self, Raise e)
                | Ok last_angles =>
                    match int (duration * 2) with
                    | Raise e => (self, Raise e)
                    | Ok num_repeats =>
                        (repeat_angle self last_angles num_repeats, Ok Next)
                    end
                end
              else (self, Ok Next)
          | END => (append_angle self (SERVO1_HOME, SERVO2_HOME), Ok Break)
          | _ => (self, Ok Next)
          end
      end
  end.

(** One turn of the loop over the lines. *)
Definition process_line (self : SDCardExporter) (line_num : Z) (line : string)
    : SDCardExporter * flow :=
  let line := strip line in
  if match line with EmptyString => true | _ => false end
     || startswith line ";"
  then (self, Next)
  else
    match line_body self line_num line with
    | (self, Ok f) => (self, f)
    | (self, Raise e) => (append_error self (LineError line_num line e), Next)
    end.

(** [for line_num, line in enumerate(lines, line_num)] *)
Fixpoint process_lines (self : SDCardExporter) (line_num : Z)
    (lines : list string) : SDCardExporter :=
  match lines with
  | [] => self
  | line :: lines' =>
      match process_line self line_num line with
      | (self, Break) => self
      | (self, Next) => process_lines self (line_num + 1) lines'
      end
  end.

(** [process_gcode]: the exporter afterwards; the method returns its
    [angle_list] and [error_log]. *)
Definition process_gcode (self : SDCardExporter) (gcode_text : string)
    : SDCardExporter :=
  let self :=
    {| parser := parser self; kinematics := kinematics self;
       angle_list := []; error_log := [] |} in
  let self := append_angle self (SERVO1_HOME, SERVO2_HOME) in
  let lines := split "010" (strip gcode_text) in
  process_lines self 1 lines.

End WithMath.

(** [get_statistics]: the dictionary it returns, [None] for the empty one. *)
Record statistics : Type := {
  total_points : Z;
  servo1_range : Z * Z;
  servo2_range : Z * Z;
  estimated_time_seconds : float;
  errors : Z
}.

Definition get_statistics (self : SDCardExporter) : option statistics :=
  match angle_list self with
  | [] => None
  | a :: rest =>
      let angles1 := map fst rest in
      let angles2 := map snd rest in
      let len := Z.of_nat (List.length (angle_list self)) in
      Some {| total_points := len;
              servo1_range := (min_list (fst a) angles1, max_list (fst a) angles1);
              servo2_range := (min_list (snd a) angles2, max_list (snd a) angles2);
              estimated_time_seconds := float_of_Z len * 0.1;
              errors := Z.of_nat (List.length (error_log self)) |}
  end.

(** The list [preview_lines] that [preview_angles] joins. *)
Definition preview_lines (self : SDCardExporter) (max_lines : Z) : list string :=
  let header :=
    ["Servo Angles Preview:"%string;
     string_of_list_ascii (repeat "-"%char 30)] in
  let rows :=
    map (fun '(i, (a1, a2)) =>
           (format_d 4 (i + 1) ++ ": " ++ format_d 3 a1 ++ ", " ++ format_d 3 a2)%string)
        (enumerate (slice_to (angle_list self) max_lines) 0) in
  let len := Z.of_nat (List.length (angle_list self)) in
  if (max_lines <? len)%Z then
    header ++ rows ++ ["... (" ++ str_int (len - max_lines) ++ " more lines)"]%string
  else header ++ rows.

Definition preview_angles (self : SDCardExporter) (max_lines : Z) : string :=
  match angle_list self with
  | [] => "No data to preview"
  | _ => join (String "010" EmptyString) (preview_lines self max_lines)
  end.

(** The messages [export_to_file] appends to [error_log]: "No angles to
    export - process G-code first" and "File write error: e". *)
Inductive export_message {F : FileSystem} : Type :=
| NoAngles
| FileWriteError (e : os_error).

(** What is in the list of errors [gcode_to_sd_card] returns. *)
Inductive message {F : FileSystem} : Type :=
| Processing (m : log_entry)
| Exporting (m : export_message).

Section WithFiles.
Context {F : FileSystem}.

(** One line of the file: [f"{angle1},{angle2}\n"]. *)
Definition file_line (a : Z * Z) : string :=
  (str_int (fst a) ++ "," ++ str_int (snd a) ++ String "010" EmptyString)%string.

(** [export_to_file]: the files afterwards, the path returned ([None] for
    [None]) and the messages appended to [self.error_log]. *)
Definition export_to_file (self : SDCardExporter) (filename : string) (w : world)
    : world * (option string * list export_message) :=
  match angle_list self with
  | [] => (w, (None, [NoAngles]))
  | _ =>
      match write_file filename (map file_line (angle_list self)) w with
      | (w, Some e) => (w, (None, [FileWriteError e]))
      | (w, None) =>
          match abspath filename w with
          | inl path => (w, (Some path, []))
          | inr e => (w, (None, [FileWriteError e]))
          end
      end
  end.

(** [gcode_to_sd_card]: the files afterwards and the tuple
    [(success, filepath, errors)]. *)
Definition gcode_to_sd_card {M : MathLib} (gcode_text : string)
    (output_file : string) (w : world)
    : world * (bool * option string * list message) :=
  let exporter := init in
  let exporter := process_gcode exporter gcode_text in
  match error_log exporter with
  | _ :: _ => (w, (false, None, map Processing (error_log exporter)))
  | [] =>
      let '(w, (filepath, appended)) := export_to_file exporter output_file w in
      let failed :=
        (w, (false, None,
             map Processing (error_log exporter) ++ map Exporting appended)) in
      match filepath with
      | Some (String c path) => (w, (true, Some (String c path), []))
      | Some EmptyString => failed
      | None => failed
      end
  end.

End WithFiles.

End sd_exporter.

(* ================================================================== *)
(** * A math library to run the model with *)
(* ================================================================== *)

(** Series approximations of the four C functions, good to about fifteen
    digits; they make the model executable on scripts that move the arm.
    Every theorem below is stated for an arbitrary [MathLib]; this one only
    instantiates them on concrete inputs. *)
Module approx.

Fixpoint alternating (n : nat) (k term r2 acc : float) : float :=
  match n with
  | O => acc
  | S n' =>
      let term' := - (term * r2) / ((k + 1) * (k + 2)) in
      alternating n' (k + 2) term' r2 (acc + term')
  end.

Definition clamp (lo hi v : float) : float :=
  if lo <=? v then (if v <=? hi then v else hi) else lo.

(** [x] less the nearest multiple of a full turn. *)
Definition reduce (x : float) : float :=
  match round (x / (2 * pi)) with
  | Ok k => x - float_of_Z k * (2 * pi)
  | Raise _ => x
  end.

Definition cos (x : float) : float :=
  if is_finite x then
    let r := reduce x in clamp (-1) 1 (alternating 16 0 1 (r * r) 1)
  else nan.

Definition sin (x : float) : float :=
  if is_finite x then
    let r := reduce x in clamp (-1) 1 (alternating 16 1 r (r * r) r)
  else nan.

Fixpoint gregory (n : nat) (k pw y2 acc : float) : float :=
  match n with
  | O => acc
  | S n' =>
      let pw' := - (pw * y2) in
      gregory n' (k + 2) pw' y2 (acc + pw' / (k + 2))
  end.

Definition halve (x : float) : float := x / (1 + PrimFloat.sqrt (1 + x * x)).

Definition atan_unit (x : float) : float :=
  let y := halve (halve x) in 4 * gregory 14 1 y (y * y) y.

Definition atan (x : float) : float :=
  if 1 <? abs x then
    if 0 <? x then pi / 2 - atan_unit (1 / x) else - (pi / 2) - atan_unit (1 / x)
  else atan_unit x.

Definition unit_of (v : float) : float := if v <? 0 then -1 else 1.

Definition atan2 (y x : float) : float :=
  if is_nan y || is_nan x then nan
  else
    let both := is_infinity y && is_infinity x in
    let y := if both then unit_of y else y in
    let x := if both then unit_of x else x in
    clamp (- pi) pi
      (if 0 <? x then atan (y / x)
       else if x <? 0 then
         if y <? 0 then atan (y / x) - pi else atan (y / x) + pi
       else if 0 <? y then pi / 2
       else if y <? 0 then - (pi / 2)
       else 0).

Definition acos (x : float) : float :=
  if (-1 <=? x) && (x <=? 1) then
    clamp 0 pi (atan2 (PrimFloat.sqrt ((1 - x) * (1 + x))) x)
  else nan.

Definition math : MathLib :=
  {| c_acos := acos; c_atan2 := atan2; c_cos := cos; c_sin := sin |}.

End approx.

(* ================================================================== *)
(** * The geometry over the real numbers *)
(* ================================================================== *)

(** [kinematics.py] once more, with every float operation read as the
    operation on real numbers it rounds: [math.atan2] is the principal
    argument, [math.acos], [math.cos] and [math.sin] are the real functions,
    [int] truncates.  What remains of the exceptions is kept: the two reach
    errors and the division by zero. *)
Module Exact.

Open Scope R_scope.

Definition atan2 (y x : R) : R :=
  if Rlt_dec 0 x then atan (y / x)
  else if Rlt_dec x 0 then
    if Rle_dec 0 y then atan (y / x) + PI else atan (y / x) - PI
  else if Rlt_dec 0 y then PI / 2
  else if Rlt_dec y 0 then - (PI / 2)
  else 0.

Definition degrees (x : R) : R := x * (180 / PI).
Definition radians (x : R) : R := x * (PI / 180).

Definition truediv (a b : R) : result R :=
  if Req_dec_T b 0 then Raise ZeroDivisionError else Ok (a / b).

(** [int(x)] *)
Definition int (x : R) : Z :=
  if Rle_dec 0 x then Int_part x else (- Int_part (- x))%Z.

Record SCARAKinematics : Type := {
  L1 : R;
  L2 : R;
  max_reach : R;
  min_reach : R
}.

Definition init (L1 L2 : R) : SCARAKinematics :=
  {| L1 := L1; L2 := L2; max_reach := L1 + L2; min_reach := Rabs (L1 - L2) |}.

Definition inverse_kinematics (self : SCARAKinematics) (x y : R)
    (elbow_up : bool) : result (R * R) :=
  let r := sqrt (x ^ 2 + y ^ 2) in
  if Rlt_dec (max_reach self) r then Raise (ValueError OutOfReach)
  else if Rlt_dec r (min_reach self) then Raise (ValueError TooClose)
  else if Rlt_dec r (1 / 1000) then Ok (0, 0)
  else
    cos_theta2 <- truediv (x ^ 2 + y ^ 2 - L1 self ^ 2 - L2 self ^ 2)
                    (2 * L1 self * L2 self) ;;
    let cos_theta2 := Rmax (-1) (Rmin 1 cos_theta2) in
    let theta2 := if elbow_up then acos cos_theta2 else - acos cos_theta2 in
    let k1 := L1 self + L2 self * cos theta2 in
    let k2 := L2 self * sin theta2 in
    let theta1 := atan2 y x - atan2 k2 k1 in
    Ok (degrees theta1, degrees theta2).

Definition forward_kinematics (self : SCARAKinematics)
    (theta1_deg theta2_deg : R) : R * R :=
  let theta1 := radians theta1_deg in
  let theta2 := radians theta2_deg in
  let elbow_x := L1 self * cos theta1 in
  let elbow_y := L1 self * sin theta1 in
  let x := elbow_x + L2 self * cos (theta1 + theta2) in
  let y := elbow_y + L2 self * sin (theta1 + theta2) in
  (x, y).

Definition is_reachable (self : SCARAKinematics) (x y : R) : bool :=
  let r := sqrt (x ^ 2 + y ^ 2) in
  if Rle_dec (min_reach self) r then
    if Rle_dec r (max_reach self) then true else false
  else false.

Definition arc_sweep (clockwise : bool) (start_angle end_angle : R) : R :=
  if clockwise then
    if Rlt_dec start_angle end_angle then end_angle - start_angle - 2 * PI
    else end_angle - start_angle
  else
    if Rlt_dec end_angle start_angle then end_angle - start_angle + 2 * PI
    else end_angle - start_angle.

(** The values [angle] takes in the loop of [interpolate_arc]. *)
Definition arc_angles (start_angle sweep : R) (num_segments : Z) : list R :=
  map (fun i => start_angle + IZR i / IZR num_segments * sweep)
      (range (num_segments + 1)).

Definition arc_segments (x_start y_start x_end y_end x_center y_center : R)
    (clockwise : bool) (segments_per_inch : R) : Z :=
  let start_angle := atan2 (y_start - y_center) (x_start - x_center) in
  let end_angle := atan2 (y_end - y_center) (x_end - x_center) in
  let radius := sqrt ((x_start - x_center) ^ 2 + (y_start - y_center) ^ 2) in
  let sweep := arc_sweep clockwise start_angle end_angle in
  let arc_length := Rabs (radius * sweep) in
  Z.max 4 (int (arc_length * segments_per_inch)).

Definition interpolate_arc (x_start y_start x_end y_end x_center y_center : R)
    (clockwise : bool) (segments_per_inch : R) : list (R * R) :=
  let start_angle := atan2 (y_start - y_center) (x_start - x_center) in
  let end_angle := atan2 (y_end - y_center) (x_end - x_center) in
  let radius := sqrt ((x_start - x_center) ^ 2 + (y_start - y_center) ^ 2) in
  let sweep := arc_sweep clockwise start_angle end_angle in
  let num_segments :=
    arc_segments x_start y_start x_end y_end x_center y_center clockwise
      segments_per_inch in
  map (fun angle =>
         (x_center + radius * cos angle, y_center + radius * sin angle))
      (arc_angles start_angle sweep num_segments).


End Exact.

(* ================================================================== *)
(** * Vocabulary of the statements *)
(* ================================================================== *)

Import Py kinematics gcode_parser sd_exporter.

(** One line of text through [parse_line] and [execute_command]: the parser
    afterwards. *)
Definition run {M : MathLib} (self : GCodeParser) (line : string) : GCodeParser :=
  match parse_line line with
  | Ok parsed => fst (execute_command self parsed)
  | Raise _ => self
  end.

(** The four commands that take a target. *)
Inductive motion : Type := Rapid | Feed | ArcCW | ArcCCW.

Definition code (m : motion) : string :=
  match m with
  | Rapid => "G0"
  | Feed => "G1"
  | ArcCW => "G2"
  | ArcCCW => "G3"
  end.

(** The target of G0-G3 after the offset is subtracted. *)
Definition internal_target (self : GCodeParser) (params : dict) : position :=
  {| x := fst (resolve_target self params) - x (offset self);
     y := snd (resolve_target self params) - y (offset self) |}.

(** The interpolator call of each command, on a given end point. *)
Definition interpolation {M : MathLib} (m : motion) (self : GCodeParser)
    (params : dict) (target : position) : result (list point) :=
  let cx := x (current_pos self) in
  let cy := y (current_pos self) in
  match m with
  | Rapid | Feed => interpolate_line cx cy (x target) (y target) 5
  | ArcCW =>
      interpolate_arc cx cy (x target) (y target)
        (cx + get params "I" 0) (cy + get params "J" 0) true
        config.ARC_SEGMENTS_PER_INCH
  | ArcCCW =>
      interpolate_arc cx cy (x target) (y target)
        (cx + get params "I" 0) (cy + get params "J" 0) false
        config.ARC_SEGMENTS_PER_INCH
  end.

(** The ['waypoints'] entry of a result, when it has one. *)
Definition waypoints_of (r : option ExecutionResult) : option (list point) :=
  match r with
  | Some (MOVE_LINEAR _ _ w _ _) | Some (MOVE_ARC _ _ _ w _ _) | Some (HOME w _) =>
      Some w
  | _ => None
  end.





(** The loop over the lines, with the way it ended. *)
Fixpoint run_lines {M : MathLib} (self : SDCardExporter) (line_num : Z)
    (lines : list string) : SDCardExporter * flow :=
  match lines with
  | [] => (self, Next)
  | line :: lines' =>
      match process_line self line_num line with
      | (self, Break) => (self, Break)
      | (self, Next) => run_lines self (line_num + 1) lines'
      end
  end.

(** A line that is read as a command and executes to [END], leaving the
    parser [p]. *)
Definition executes_to_end {M : MathLib} (self : SDCardExporter) (line : string)
    (p : GCodeParser) : Prop :=
  strip line <> EmptyString /\ startswith (strip line) ";" = false /\
  exists parsed,
    parse_line (strip line) = Ok (Some parsed) /\
    execute_command (parser self) (Some parsed) = (p, Ok (Some END)).

(* ================================================================== *)
(** * Lists, the exception monad and the division of ints *)
(* ================================================================== *)

(** ** The monadic map *)

Lemma mapM_length {A B} (f : A -> result B) xs ys :
  mapM f xs = Ok ys -> List.length ys = List.length xs.
Proof.
  revert ys. induction xs as [|a xs IH]; intros ys H; cbn in H.
  - injection H as <-. reflexivity.
  - destruct (f a) as [b|e]; cbn in H; [|discriminate].
    destruct (mapM f xs) as [bs|e]; cbn in H; [|discriminate].
    injection H as <-. cbn. f_equal. apply IH. reflexivity.
Qed.

Lemma mapM_nth_error {A B} (f : A -> result B) xs ys i a :
  mapM f xs = Ok ys -> nth_error xs i = Some a ->
  exists b, f a = Ok b /\ nth_error ys i = Some b.
Proof.
  revert ys i. induction xs as [|a' xs IH]; intros ys i H Hi.
  - destruct i; discriminate.
  - cbn in H. destruct (f a') as [b|e] eqn:Fa; cbn in H; [|discriminate].
    destruct (mapM f xs) as [bs|e]; cbn in H; [|discriminate].
    injection H as <-. destruct i as [|i]; cbn in Hi |- *.
    + injection Hi as <-. exists b. split; [exact Fa|reflexivity].
    + apply IH; [reflexivity|exact Hi].
Qed.

Lemma mapM_total {A B} (f : A -> result B) xs :
  (forall a, In a xs -> exists b, f a = Ok b) -> exists ys, mapM f xs = Ok ys.
Proof.
  induction xs as [|a xs IH]; intros H; cbn.
  - eexists. reflexivity.
  - destruct (H a (or_introl eq_refl)) as [b ->]. cbn.
    destruct IH as [bs ->]; [intros a' Ha'; apply H; right; exact Ha'|].
    eexists. reflexivity.
Qed.

Lemma length_range n : List.length (range n) = Z.to_nat n.
Proof. unfold range. rewrite length_map, length_seq. reflexivity. Qed.

Lemma nth_error_range n i :
  (i < Z.to_nat n)%nat -> nth_error (range n) i = Some (Z.of_nat i).
Proof.
  intros H. unfold range. rewrite nth_error_map, nth_error_seq.
  destruct (Nat.ltb_spec i (Z.to_nat n)); [reflexivity | lia].
Qed.

Lemma In_range n i : In i (range n) -> (0 <= i < n)%Z.
Proof.
  unfold range. rewrite in_map_iff. intros [k [<- Hk]]. apply in_seq in Hk. lia.
Qed.

(** ** Division of ints *)

Lemma int_truediv_le i n :
  (0 <= i <= n)%Z -> (0 < n)%Z -> exists t, int_truediv i n = Ok t.
Proof.
  intros Hi Hn. unfold int_truediv.
  destruct (Z.eqb_spec n 0); [lia|].
  assert (Hc : (2 <= 2 ^ 1024 - 2 ^ 970)%Z) by (vm_compute; discriminate).
  destruct (Z.leb_spec (Z.abs n * (2 ^ 1024 - 2 ^ 970)) (Z.abs i)) as [H|H].
  - exfalso. generalize dependent (2 ^ 1024 - 2 ^ 970)%Z. intros c Hc H. nia.
  - eexists. reflexivity.
Qed.






Ltac bind_ok H :=
  match type of H with
  | bind ?c _ = Ok _ =>
      let E := fresh "E" in
      destruct c eqn:E; cbn [bind] in H; [|discriminate H]
  end.


(* ================================================================== *)
(** * IEEE arithmetic by case analysis *)
(* ================================================================== *)

(** * IEEE facts by case analysis *)

Lemma SFcompare_refl x : x <> S754_nan -> SFcompare x x = Some Eq.
Proof.
  destruct x as [s|s| |s m e]; intros H; try congruence; destruct s; cbn;
    try reflexivity; rewrite Z.compare_refl, Pos.compare_cont_refl; reflexivity.
Qed.

Lemma is_nan_spec x :
  is_nan x = match Prim2SF x with S754_nan => true | _ => false end.
Proof.
  unfold is_nan. rewrite eqb_spec. unfold SFeqb.
  destruct (Prim2SF x) eqn:E; try (rewrite SFcompare_refl by congruence); reflexivity.
Qed.

Lemma is_infinity_spec x :
  is_infinity x = match Prim2SF x with S754_infinity _ => true | _ => false end.
Proof.
  unfold is_infinity. rewrite eqb_spec, abs_spec.
  destruct (Prim2SF x) as [s|s| |s m e]; reflexivity.
Qed.

Lemma is_finite_spec x :
  is_finite x =
  match Prim2SF x with S754_zero _ | S754_finite _ _ _ => true | _ => false end.
Proof.
  unfold is_finite. rewrite is_nan_spec, is_infinity_spec.
  destruct (Prim2SF x); reflexivity.
Qed.











Lemma line_segments_ge_2 xs ys xe ye d n :
  line_segments xs ys xe ye d = Ok n -> (2 <= n)%Z.
Proof.
  unfold line_segments. intros H.
  destruct (pow2 (xe - xs)); cbn in H; [|discriminate].
  destruct (pow2 (ye - ys)); cbn in H; [|discriminate].
  destruct (math_sqrt _); cbn in H; [|discriminate].
  destruct (int _); cbn in H; [|discriminate].
  injection H as <-. lia.
Qed.


(** ** The order on floats *)
















(* ================================================================== *)
(** * The math library used on concrete inputs meets the standard *)
(* ================================================================== *)

Lemma clamp_finite lo hi v :
  is_finite lo = true -> is_finite hi = true ->
  is_finite (approx.clamp lo hi v) = true.
Proof.
  intros Flo Fhi. unfold approx.clamp.
  destruct (lo <=? v) eqn:L; [|exact Flo].
  destruct (v <=? hi) eqn:H; [|exact Fhi].
  rewrite is_finite_spec in *. rewrite leb_spec in L, H. unfold SFleb in L, H.
  destruct (Prim2SF v) as [s|s| |s m e]; try reflexivity;
    destruct (Prim2SF lo) as [sl|sl| |sl ml el]; try discriminate;
    destruct (Prim2SF hi) as [sh|sh| |sh mh eh]; try discriminate;
    destruct s; cbn in L, H; discriminate.
Qed.

#[export] Instance approx_math_spec : MathLibSpec approx.math.
Proof.
  split; cbn [c_acos c_atan2 c_cos c_sin approx.math].
  - intros v H1 H2. unfold approx.acos. rewrite H1, H2. cbn [andb].
    apply clamp_finite; reflexivity.
  - intros v F. unfold approx.cos. rewrite F. apply clamp_finite; reflexivity.
  - intros v F. unfold approx.sin. rewrite F. apply clamp_finite; reflexivity.
  - intros a b Na Nb. unfold approx.atan2. rewrite Na, Nb. cbn [orb].
    apply clamp_finite; reflexivity.
Qed.


(* ================================================================== *)
(** * kinematics.py: the line interpolator *)
(* ================================================================== *)

(** The list built by the loop of [interpolate_line]. *)
Lemma interpolate_line_returns (x_start y_start x_end y_end density : float) :
  match line_segments x_start y_start x_end y_end density with
  | Raise e => interpolate_line x_start y_start x_end y_end density = Raise e
  | Ok n =>
      exists waypoints,
        interpolate_line x_start y_start x_end y_end density = Ok waypoints /\
        List.length waypoints = Z.to_nat (n + 1) /\
        forall i, (0 <= i <= n)%Z ->
          exists t, int_truediv i n = Ok t /\
            nth_error waypoints (Z.to_nat i)
            = Some (x_start + t * (x_end - x_start), y_start + t * (y_end - y_start))
  end.
Proof.
  unfold interpolate_line.
  destruct (line_segments x_start y_start x_end y_end density) as [n|e] eqn:Hn;
    cbn [bind]; [|reflexivity].
  pose proof (line_segments_ge_2 _ _ _ _ _ _ Hn) as Hn2.
  set (f := fun i : Z =>
              t <- int_truediv i n ;;
              Ok (x_start + t * (x_end - x_start), y_start + t * (y_end - y_start))).
  destruct (mapM_total f (range (n + 1))) as [wps Hw].
  { intros i Hi. apply In_range in Hi. unfold f.
    destruct (int_truediv_le i n ltac:(lia) ltac:(lia)) as [t ->]. eexists. reflexivity. }
  exists wps. split; [exact Hw|]. split.
  { etransitivity; [exact (mapM_length _ _ _ Hw)|apply length_range]. }
  intros i Hi.
  destruct (mapM_nth_error f _ _ (Z.to_nat i) i Hw) as [b [Hb Hi']].
  { rewrite nth_error_range by lia. f_equal. lia. }
  unfold f in Hb. destruct (int_truediv i n) as [t|]; cbn in Hb; [|discriminate].
  injection Hb as <-. exists t. split; [reflexivity|exact Hi'].
Qed.



(* ================================================================== *)
(** * kinematics.py: reach of the inverse kinematics *)
(* ================================================================== *)

Section Reach.
Context {M : MathLib} {S : MathLibSpec M}.





End Reach.


(* ================================================================== *)
(** * gcode_parser.py: the coordinate offset *)
(* ================================================================== *)

(** C1.  What the code does on the scenario: from (4,4), after [G92 X0 Y0],
    [G1 X2 Y2] takes the arm to (-2,-2), where the reported position is
    (-6,-6); the move subtracts the offset that [get_current_position] shows
    must be added. *)
Theorem g92_then_g1_goes_to_minus_2 (M : MathLib) :
  let at_4_4 := run gcode_parser.init "G0 X4 Y4" in
  let shifted := run at_4_4 "G92 X0 Y0" in
  let moved := run shifted "G1 X2 Y2" in
  (current_pos at_4_4 = {| x := 4; y := 4 |} /\
   offset at_4_4 = {| x := 0; y := 0 |} /\ absolute_mode at_4_4 = true) /\
  (current_pos shifted = {| x := 4; y := 4 |} /\
   get_current_position shifted = {| x := 0; y := 0 |}) /\
  current_pos moved = {| x := -2; y := -2 |} /\
  get_current_position moved = {| x := -6; y := -6 |}.
Proof. vm_compute. repeat split. Qed.

(** ** G92 *)

Lemma sub_self_sub x : is_finite x = true -> (x - (x - x) =? x) = true.
Proof.
  rewrite is_finite_spec, eqb_spec, !sub_spec. unfold SF64sub.
  destruct (Prim2SF x) as [s|s| |s m e] eqn:E; try discriminate; intros _.
  - destruct s; reflexivity.
  - assert (H : SFsub prec emax (S754_finite s m e) (S754_finite s m e) = S754_zero false).
    { cbn [SFsub]. rewrite Z.sub_diag. reflexivity. }
    rewrite H. cbn [SFsub]. unfold SFeqb. rewrite SFcompare_refl by discriminate. reflexivity.
Qed.

Lemma sub_self_sub_zero x : is_finite x = true -> (x - (x - 0) =? 0) = true.
Proof.
  rewrite is_finite_spec, eqb_spec, !sub_spec. unfold SF64sub.
  change (Prim2SF 0) with (S754_zero false).
  destruct (Prim2SF x) as [s|s| |s m e] eqn:E; try discriminate; intros _.
  - destruct s; reflexivity.
  - cbn [SFsub]. rewrite Z.sub_diag. reflexivity.
Qed.

(** C10, amended.  G92 with parameters leaves [current_pos] unchanged and
    sets the offset on each axis to the current coordinate less the
    supplied value, or less the current coordinate itself when the axis is
    missing; [get_current_position] then returns [c - (c - v)] on a supplied
    axis, the requested value up to rounding (exactly so for the value 0),
    and on a missing axis the internal coordinate, whatever the offset was
    before. *)
Theorem set_position_redefines_frame (self : GCodeParser) (params : dict) :
  params <> [] ->
  let self' := fst (_process_set_position self params) in
  let cx := x (current_pos self) in
  let cy := y (current_pos self) in
  current_pos self' = current_pos self /\
  offset self' = {| x := cx - get params "X" cx; y := cy - get params "Y" cy |} /\
  get_current_position self'
  = {| x := cx - (cx - get params "X" cx); y := cy - (cy - get params "Y" cy) |} /\
  (lookup params "X" = None -> is_finite cx = true ->
   (x (get_current_position self') =? cx) = true) /\
  (lookup params "Y" = None -> is_finite cy = true ->
   (y (get_current_position self') =? cy) = true) /\
  (lookup params "X" = Some 0 -> is_finite cx = true ->
   (x (get_current_position self') =? 0) = true) /\
  (lookup params "Y" = Some 0 -> is_finite cy = true ->
   (y (get_current_position self') =? 0) = true).
Proof.
  intros Hp. destruct params as [|kv params]; [congruence|].
  cbn -[get lookup]. repeat split.
  - intros H F. unfold get. rewrite H. apply sub_self_sub. exact F.
  - intros H F. unfold get. rewrite H. apply sub_self_sub. exact F.
  - intros H F. unfold get. rewrite H. apply sub_self_sub_zero. exact F.
  - intros H F. unfold get. rewrite H. apply sub_self_sub_zero. exact F.
Qed.

Lemma set_position_redefines_frame_witness :
  [("X"%char, 2)] <> [] /\
  current_pos (fst (_process_set_position gcode_parser.init [("X"%char, 2)]))
  = current_pos gcode_parser.init.
Proof.
  split; [discriminate|].
  apply (set_position_redefines_frame gcode_parser.init [("X"%char, 2)]). discriminate.
Defined.

(** C10, as stated, fails when an axis is missing under an earlier offset:
    the reported Y goes from 1 to the internal 6. *)
Lemma set_position_missing_axis :
  let before := run (M := approx.math) gcode_parser.init "G92 X1 Y1" in
  let after := run (M := approx.math) before "G92 X2" in
  get_current_position before = {| x := 1; y := 1 |} /\
  current_pos after = current_pos before /\
  get_current_position after = {| x := 2; y := 6 |}.
Proof. vm_compute. repeat split. Qed.

(* ================================================================== *)
(** * gcode_parser.py: the motion commands *)
(* ================================================================== *)

Lemma item0_total {A} (xs : list A) :
  (0 < List.length xs)%nat -> exists v, item0 xs = Ok v.
Proof. destruct xs; cbn; [lia|]. eexists. reflexivity. Qed.

Lemma item_last_total {A} (xs : list A) :
  (0 < List.length xs)%nat -> exists v, item_last xs = Ok v.
Proof.
  induction xs as [|a xs IH]; cbn [List.length item_last]; [lia|].
  intros _. destruct xs as [|b xs]; [eexists; reflexivity|].
  apply IH. cbn. lia.
Qed.

Lemma current_pos_update_feed_rate self params :
  current_pos (update_feed_rate self params) = current_pos self.
Proof. unfold update_feed_rate. destruct (lookup params "F"); reflexivity. Qed.

Lemma linear_move_target self params rapid :
  let target := internal_target self params in
  match interpolate_line (x (current_pos self)) (y (current_pos self))
          (x target) (y target) 5 with
  | Ok waypoints =>
      current_pos (fst (_process_linear_move self params rapid)) = target /\
      (exists r, snd (_process_linear_move self params rapid) = Ok r /\
                 waypoints_of (Some r) = Some waypoints)
  | Raise e =>
      current_pos (fst (_process_linear_move self params rapid)) = current_pos self /\
      snd (_process_linear_move self params rapid) = Raise e
  end.
Proof.
  unfold _process_linear_move, internal_target.
  destruct (resolve_target self params) as [tx ty]. cbn [fst snd x y].
  rewrite current_pos_update_feed_rate.
  pose proof (interpolate_line_returns (x (current_pos self)) (y (current_pos self))
                (tx - x (offset self)) (ty - y (offset self)) 5) as W.
  destruct (line_segments _ _ _ _ _) as [n|e] eqn:Hn.
  - destruct W as [wps [-> [Hlen _]]].
    pose proof (line_segments_ge_2 _ _ _ _ _ _ Hn) as Hn2.
    unfold point in *.
    destruct (item0_total wps ltac:(lia)) as [s ->].
    destruct (item_last_total wps ltac:(lia)) as [l ->]. cbn.
    split; [reflexivity|]. eexists. split; reflexivity.
  - rewrite W. cbn. rewrite current_pos_update_feed_rate. split; reflexivity.
Qed.

Lemma interpolate_arc_length {M : MathLib} xs ys xe ye xc yc cw d wps :
  interpolate_arc xs ys xe ye xc yc cw d = Ok wps -> (5 <= List.length wps)%nat.
Proof.
  unfold interpolate_arc. intros H. repeat bind_ok H.
  apply mapM_length in H. rewrite H, length_range. lia.
Qed.

Lemma arc_move_target {M : MathLib} self params clockwise :
  let target := internal_target self params in
  match interpolate_arc (x (current_pos self)) (y (current_pos self))
          (x target) (y target)
          (x (current_pos self) + get params "I" 0)
          (y (current_pos self) + get params "J" 0) clockwise
          config.ARC_SEGMENTS_PER_INCH with
  | Ok waypoints =>
      current_pos (fst (_process_arc_move self params clockwise)) = target /\
      (exists r, snd (_process_arc_move self params clockwise) = Ok r /\
                 waypoints_of (Some r) = Some waypoints)
  | Raise e =>
      current_pos (fst (_process_arc_move self params clockwise)) = current_pos self /\
      snd (_process_arc_move self params clockwise) = Raise e
  end.
Proof.
  unfold _process_arc_move, internal_target.
  destruct (resolve_target self params) as [tx ty]. cbn [fst snd x y].
  rewrite current_pos_update_feed_rate.
  destruct (interpolate_arc _ _ _ _ _ _ _ _) as [wps|e] eqn:Hw.
  - apply interpolate_arc_length in Hw.
    destruct (item0_total wps ltac:(lia)) as [s Hs].
    destruct (item_last_total wps ltac:(lia)) as [l Hl].
    cbn [fst snd]. rewrite Hs, Hl. cbn.
    split; [reflexivity|]. eexists. split; reflexivity.
  - cbn. rewrite current_pos_update_feed_rate. split; reflexivity.
Qed.

Lemma execute_motion {M : MathLib} m self params raw :
  execute_command self (Some {| command := code m; params := params; raw := raw |})
  = let self1 := set_command_count self (command_count self + 1) in
    let '(self2, r) :=
      match m with
      | Rapid => _process_linear_move self1 params true
      | Feed => _process_linear_move self1 params false
      | ArcCW => _process_arc_move self1 params true
      | ArcCCW => _process_arc_move self1 params false
      end in
    (self2, r' <- r ;; Ok (Some r')).
Proof. destruct m; reflexivity. Qed.

Lemma execute_home {M : MathLib} self params raw :
  execute_command self (Some {| command := "G28"; params := params; raw := raw |})
  = let self1 := set_command_count self (command_count self + 1) in
    let '(self2, r) := _process_home self1 params in
    (self2, r' <- r ;; Ok (Some r')).
Proof. reflexivity. Qed.

(** C4, amended.  G0, G1, G2 and G3 resolve the target, subtract the offset,
    and use that one point as the end of the interpolation and, when the
    interpolation succeeds, as the new [current_pos]; a G28 without X and Y
    does the same with the home position itself, from which no offset is
    subtracted.  When the interpolation raises, the position is kept. *)
Theorem motion_uses_one_target (M : MathLib) (self : GCodeParser)
    (params : dict) (raw : string) :
  (forall m : motion,
     let cmd := {| command := code m; params := params; raw := raw |} in
     let target := internal_target self params in
     match interpolation m self params target with
     | Ok waypoints =>
         current_pos (fst (execute_command self (Some cmd))) = target /\
         exists r, snd (execute_command self (Some cmd)) = Ok r /\
                   waypoints_of r = Some waypoints
     | Raise e =>
         current_pos (fst (execute_command self (Some cmd))) = current_pos self /\
         snd (execute_command self (Some cmd)) = Raise e
     end) /\
  (let cmd := {| command := "G28"; params := params; raw := raw |} in
   let target := home_pos self in
   if contains params "X" || contains params "Y" then True
   else
     match interpolation Rapid self params target with
     | Ok waypoints =>
         current_pos (fst (execute_command self (Some cmd))) = target /\
         exists r, snd (execute_command self (Some cmd)) = Ok r /\
                   waypoints_of r = Some waypoints
     | Raise e =>
         current_pos (fst (execute_command self (Some cmd))) = current_pos self /\
         snd (execute_command self (Some cmd)) = Raise e
     end).
Proof.
  split.
  - intros m cmd target. unfold cmd. rewrite execute_motion.
    set (self1 := set_command_count self (command_count self + 1)).
    assert (T : internal_target self1 params = target) by reflexivity.
    destruct m; cbn [interpolation].
    + pose proof (linear_move_target self1 params true) as L. cbn zeta in L. rewrite T in L.
      change (current_pos self1) with (current_pos self) in L.
      destruct (interpolate_line _ _ _ _ _); destruct (_process_linear_move self1 params true) as [s2 r];
        cbn [fst snd] in *.
      * destruct L as [-> [r' [-> Hw]]]. split; [reflexivity|]. exists (Some r'). split; [reflexivity|exact Hw].
      * destruct L as [-> ->]. split; reflexivity.
    + pose proof (linear_move_target self1 params false) as L. cbn zeta in L. rewrite T in L.
      change (current_pos self1) with (current_pos self) in L.
      destruct (interpolate_line _ _ _ _ _); destruct (_process_linear_move self1 params false) as [s2 r];
        cbn [fst snd] in *.
      * destruct L as [-> [r' [-> Hw]]]. split; [reflexivity|]. exists (Some r'). split; [reflexivity|exact Hw].
      * destruct L as [-> ->]. split; reflexivity.
    + pose proof (arc_move_target self1 params true) as L. cbn zeta in L. rewrite T in L.
      change (current_pos self1) with (current_pos self) in L.
      destruct (interpolate_arc _ _ _ _ _ _ _ _); destruct (_process_arc_move self1 params true) as [s2 r];
        cbn [fst snd] in *.
      * destruct L as [-> [r' [-> Hw]]]. split; [reflexivity|]. exists (Some r'). split; [reflexivity|exact Hw].
      * destruct L as [-> ->]. split; reflexivity.
    + pose proof (arc_move_target self1 params false) as L. cbn zeta in L. rewrite T in L.
      change (current_pos self1) with (current_pos self) in L.
      destruct (interpolate_arc _ _ _ _ _ _ _ _); destruct (_process_arc_move self1 params false) as [s2 r];
        cbn [fst snd] in *.
      * destruct L as [-> [r' [-> Hw]]]. split; [reflexivity|]. exists (Some r'). split; [reflexivity|exact Hw].
      * destruct L as [-> ->]. split; reflexivity.
  - cbn zeta. rewrite execute_home. unfold _process_home.
    destruct (contains params "X" || contains params "Y") eqn:C; [exact I|].
    cbn [interpolation]. cbn [current_pos set_command_count home_pos].
    destruct (interpolate_line _ _ _ _ _) as [wps|e]; cbn.
    + split; [destruct (home_pos self); reflexivity|]. eexists. split; reflexivity.
    + split; reflexivity.
Qed.

(** C4, as stated, fails on G28: with a parameter it plans no motion and
    moves nothing; without, under an offset of (4,4), it goes to the home
    position (6,6), not to home less the offset. *)
Lemma home_ignores_offset_and_parameters :
  let at_4_4 := run (M := approx.math) gcode_parser.init "G0 X4 Y4" in
  let via := execute_command (M := approx.math) at_4_4
               (Some {| command := "G28"; params := [("X"%char, 1); ("Y"%char, 1)];
                        raw := "G28 X1 Y1" |}) in
  let shifted := run (M := approx.math) at_4_4 "G92 X0 Y0" in
  let homed := run (M := approx.math) shifted "G28" in
  (current_pos at_4_4 = {| x := 4; y := 4 |} /\
   snd via = Ok (Some (HOME_VIA (1, 1) (6, 6))) /\
   waypoints_of (Some (HOME_VIA (1, 1) (6, 6))) = None /\
   current_pos (fst via) = {| x := 4; y := 4 |}) /\
  (offset shifted = {| x := 4; y := 4 |} /\
   home_pos shifted = {| x := 6; y := 6 |} /\
   current_pos homed = {| x := 6; y := 6 |}).
Proof. vm_compute. repeat split. Qed.

(* ================================================================== *)
(** * gcode_parser.py: exceptions *)
(* ================================================================== *)

(** ** Parsing never raises *)





(** ** What [execute_command] can raise *)










Section Execute.
Context {M : MathLib}.









End Execute.




(* ================================================================== *)
(** * sd_exporter.py: the pipeline *)
(* ================================================================== *)

Section Pipeline.
Context {M : MathLib}.

Lemma process_lines_run_lines self n lines :
  process_lines self n lines = fst (run_lines self n lines).
Proof.
  revert self n. induction lines as [|l ls IH]; intros self n; cbn; [reflexivity|].
  destruct (process_line self n l) as [s [|]]; [apply IH|reflexivity].
Qed.

Lemma run_lines_app self n pre rest s1 :
  run_lines self n pre = (s1, Next) ->
  run_lines self n (pre ++ rest) = run_lines s1 (n + Z.of_nat (List.length pre)) rest.
Proof.
  revert self n. induction pre as [|l ls IH]; intros self n H; cbn in *.
  - injection H as <-. f_equal. lia.
  - destruct (process_line self n l) as [s [|]]; [|discriminate].
    rewrite (IH _ _ H). f_equal. lia.
Qed.

(** The waypoint loop only appends. *)
Lemma convert_waypoints_appends self n wps :
  exists A L,
    angle_list (fst (convert_waypoints self n wps)) = angle_list self ++ A /\
    error_log (fst (convert_waypoints self n wps)) = error_log self ++ L /\
    parser (fst (convert_waypoints self n wps)) = parser self /\
    kinematics (fst (convert_waypoints self n wps)) = kinematics self.
Proof.
  revert self. induction wps as [|[x y] wps IH]; intros self; cbn [convert_waypoints].
  - exists [], []. rewrite !app_nil_r. auto.
  - destruct (waypoint_angles self x y) as [a|[w| | |]].
    + destruct (IH (append_angle self a)) as [A [L [HA [HL [HP HK]]]]].
      exists (a :: A), L. rewrite HA, HL, HP, HK. cbn. rewrite <- app_assoc. auto.
    + destruct (IH (append_error self (PointError n x y (ValueError w)))) as [A [L [HA [HL [HP HK]]]]].
      exists A, (PointError n x y (ValueError w) :: L). rewrite HA, HL, HP, HK. cbn.
      rewrite <- app_assoc. auto.
    + exists [], []. rewrite !app_nil_r. auto.
    + exists [], []. rewrite !app_nil_r. auto.
    + exists [], []. rewrite !app_nil_r. auto.
Qed.

Lemma repeat_angle_appends self a k :
  exists A, angle_list (repeat_angle self a k) = angle_list self ++ A.
Proof.
  unfold repeat_angle. generalize (range k). intros l. revert self.
  induction l as [|i l IH]; intros self; cbn.
  - exists []. rewrite app_nil_r. reflexivity.
  - destruct (IH (append_angle self a)) as [A ->]. cbn. rewrite <- app_assoc. eauto.
Qed.

(** No line removes an angle pair. *)
Lemma process_line_appends self n line :
  exists A, angle_list (fst (process_line self n line)) = angle_list self ++ A.
Proof.
  assert (R : exists A, angle_list self = angle_list self ++ A)
    by (exists []; rewrite app_nil_r; reflexivity).
  unfold process_line.
  destruct (_ || _); [exact R|].
  unfold line_body.
  destruct (parse_line (strip line)) as [[parsed|]|e]; cbn [fst]; try exact R.
  destruct (execute_command (parser self) (Some parsed)) as [p [[res|]|e]];
    cbn [fst]; try exact R.
  destruct res; cbn [fst]; try exact R;
    try match goal with
    | |- context [convert_waypoints ?s ?n ?w] =>
        destruct (convert_waypoints_appends s n w) as [A [L [HA _]]];
        destruct (convert_waypoints s n w) as [s' [[]|e]];
        cbn [fst snd bind angle_list set_parser append_error] in *; rewrite HA; eexists; reflexivity
    end.
  - destruct (_ && _); cbn [fst]; [|exact R].
    destruct (item_last (angle_list (set_parser self p))) as [la|e]; cbn [fst]; [|exact R].
    destruct (int (duration * 2)) as [k|e]; cbn [fst]; [|exact R].
    apply (repeat_angle_appends (set_parser self p) la k).
  - eexists. reflexivity.
Qed.

Lemma run_lines_appends self n lines :
  exists A, angle_list (fst (run_lines self n lines)) = angle_list self ++ A.
Proof.
  revert self n. induction lines as [|l ls IH]; intros self n; cbn.
  - exists []. rewrite app_nil_r. reflexivity.
  - destruct (process_line_appends self n l) as [A HA].
    destruct (process_line self n l) as [s [|]]; cbn in *.
    + destruct (IH s (n + 1)%Z) as [B ->]. rewrite HA, <- app_assoc. eauto.
    + eauto.
Qed.

Lemma process_line_end self n line p :
  executes_to_end self line p ->
  process_line self n line
  = (append_angle (set_parser self p) (config.SERVO1_HOME, config.SERVO2_HOME), Break).
Proof.
  intros [Hne [Hsc [parsed [Hp He]]]]. unfold process_line.
  rewrite Hsc. destruct (strip line) eqn:E; [congruence|]. cbn [orb].
  unfold line_body. rewrite Hp, He. reflexivity.
Qed.

Lemma item_last_app {A} (xs : list A) a : item_last (xs ++ [a]) = Ok a.
Proof.
  induction xs as [|b xs IH]; [reflexivity|].
  cbn [app item_last]. destruct (xs ++ [a]) eqn:E; [destruct xs; discriminate|exact IH].
Qed.

(** C8.  The angle list of [process_gcode] begins with the home pair; and
    when the lines before some line are processed without leaving the loop
    and that line executes to END, the result is the state before it with
    the home pair appended last, whatever the lines after it. *)
Theorem home_first_and_after_end (self : SDCardExporter) (gcode_text : string) :
  let home := (config.SERVO1_HOME, config.SERVO2_HOME) in
  let start :=
    append_angle {| parser := parser self; kinematics := kinematics self;
                    angle_list := []; error_log := [] |} home in
  (exists rest, angle_list (process_gcode self gcode_text) = home :: rest) /\
  forall pre line post before p,
    split "010" (strip gcode_text) = pre ++ line :: post ->
    run_lines start 1 pre = (before, Next) ->
    executes_to_end before line p ->
    process_gcode self gcode_text = append_angle (set_parser before p) home /\
    item_last (angle_list (process_gcode self gcode_text)) = Ok home.
Proof.
  intros home start. split.
  - unfold process_gcode. fold home. fold start. rewrite process_lines_run_lines.
    destruct (run_lines_appends start 1 (split "010" (strip gcode_text))) as [A ->].
    exists A. reflexivity.
  - intros pre line post before p Hsplit Hpre Hend.
    assert (E : process_gcode self gcode_text = append_angle (set_parser before p) home).
    { unfold process_gcode. fold home. fold start.
      rewrite Hsplit, process_lines_run_lines, (run_lines_app _ _ _ _ _ Hpre).
      cbn [run_lines]. rewrite (process_line_end _ _ _ _ Hend). reflexivity. }
    split; [exact E|]. rewrite E. cbn [angle_list append_angle]. apply item_last_app.
Qed.



End Pipeline.


Lemma home_first_and_after_end_witness :
  let text := ("G90" ++ String "010" ("M2" ++ String "010" "G1 X1 Y1"))%string in
  let start := append_angle sd_exporter.init (75, 120)%Z in
  split "010" (strip text) = ["G90"%string] ++ "M2"%string :: ["G1 X1 Y1"%string] /\
  run_lines (M := approx.math) start 1 ["G90"%string]
  = (set_parser start (set_command_count gcode_parser.init 1), Next) /\
  item_last (angle_list (process_gcode (M := approx.math) sd_exporter.init text))
  = Ok (75, 120)%Z.
Proof.
  cbv zeta. split; [reflexivity|]. split; [reflexivity|].
  refine (proj2 (proj2 (home_first_and_after_end (M := approx.math) sd_exporter.init
           ("G90" ++ String "010" ("M2" ++ String "010" "G1 X1 Y1"))%string)
           ["G90"%string] "M2"%string ["G1 X1 Y1"%string]
           (set_parser (append_angle sd_exporter.init (75, 120)%Z)
              (set_command_count gcode_parser.init 1))
           (set_command_count gcode_parser.init 2) _ _ _)).
  - reflexivity.
  - reflexivity.
  - split; [discriminate|]. split; [reflexivity|].
    eexists. split; reflexivity.
Defined.

(* ================================================================== *)
(** * The geometry over the real numbers: round trip and arc sweep *)
(* ================================================================== *)

Section ExactGeometry.
Local Open Scope R_scope.














(** The reach tests once more, in real arithmetic: with positive link
    lengths nothing but the two tests can fail. *)
Lemma exact_inverse_kinematics_reach (l1 l2 x y : R) (elbow_up : bool) :
  0 < l1 -> 0 < l2 ->
  let self := Exact.init l1 l2 in
  let r := sqrt (x ^ 2 + y ^ 2) in
  (Exact.inverse_kinematics self x y elbow_up = Raise (ValueError OutOfReach)
   <-> Exact.max_reach self < r) /\
  (Exact.inverse_kinematics self x y elbow_up = Raise (ValueError TooClose)
   <-> r < Exact.min_reach self) /\
  ((exists angles, Exact.inverse_kinematics self x y elbow_up = Ok angles)
   <-> Exact.min_reach self <= r <= Exact.max_reach self) /\
  ((exists angles, Exact.inverse_kinematics self x y elbow_up = Ok angles)
   <-> Exact.is_reachable self x y = true).
Proof.
  intros H1 H2 self r.
  assert (Hmm : Exact.min_reach self <= Exact.max_reach self).
  { cbn. unfold Rabs. destruct (Rcase_abs (l1 - l2)); lra. }
  unfold Exact.inverse_kinematics, Exact.is_reachable. fold r.
  destruct (Rlt_dec (Exact.max_reach self) r) as [Hmax|Hmax].
  - destruct (Rle_dec (Exact.min_reach self) r); [|lra].
    destruct (Rle_dec r (Exact.max_reach self)); [lra|].
    repeat split; intros; try reflexivity; try discriminate; try lra;
      match goal with
      | H : exists _, _ |- _ => destruct H; discriminate
      | H : _ /\ _ |- _ => lra
      end.
  - destruct (Rlt_dec r (Exact.min_reach self)) as [Hmin|Hmin].
    + destruct (Rle_dec (Exact.min_reach self) r); [lra|].
      repeat split; intros; try reflexivity; try discriminate; try lra;
        match goal with
        | H : exists _, _ |- _ => destruct H; discriminate
        | H : _ /\ _ |- _ => lra
        end.
    + destruct (Rle_dec (Exact.min_reach self) r); [|lra].
      destruct (Rle_dec r (Exact.max_reach self)); [|lra].
      destruct (Rlt_dec r (1 / 1000)).
      * repeat split; intros; try reflexivity; try discriminate; try lra; eauto.
      * unfold Exact.truediv. cbn [Exact.L1 Exact.L2 self Exact.init].
        destruct (Req_dec_T (2 * l1 * l2) 0); [nra|]. cbn [bind].
        repeat split; intros; try reflexivity; try discriminate; try lra; eauto.
Qed.










End ExactGeometry.
